(** * pyowm: the alerting [Trigger] entity and the [ImageTypeEnum] lookups

    A shallow embedding of [pyowm/alertingapi30/trigger.py] together with the
    properties its documentation states.  Python integers are [Z], [str] is
    [string], lists are [list], an argument that may be [None] is an
    [option], and a raised exception is the [Raise] branch of [result]. *)

From stdpp Require Import base decidable option numbers list strings pretty.

Local Open Scope Z_scope.
Local Open Scope string_scope.
Local Open Scope list_scope.

(** ** Python exceptions and fallible computations *)

(** The exceptions the module and its collaborators raise. *)
Inductive exception : Type :=
| ValueError (msg : string)
| AssertionError
| TypeError (msg : string).

Inductive result (A : Type) : Type :=
| Ok (a : A)
| Raise (e : exception).

Arguments Ok {A} a.
Arguments Raise {A} e.

#[global] Instance result_ret : MRet result := fun A a => Ok a.

#[global] Instance result_bind : MBind result := fun A B f m =>
  match m with
  | Ok a => f a
  | Raise e => Raise e
  end.

(** [assert x is not None] *)
Definition assert_not_None {A : Type} (x : option A) : result A :=
  match x with
  | Some a => Ok a
  | None => Raise AssertionError
  end.

(** ** Control flow of a [for] loop

    The body receives the current element and the loop state and says whether
    the loop goes on or is left ([break], or a [return] from inside it). *)

Inductive flow : Type := Continue | Break.

Fixpoint for_in {A S : Type} (xs : list A) (body : A -> S -> S * flow) (s : S) : S :=
  match xs with
  | [] => s
  | x :: rest =>
      match body x s with
      | (s', Break) => s'
      | (s', Continue) => for_in rest body s'
      end
  end.

(** ** The objects a trigger refers to *)

Module Condition.

(** Modelled from the spec: the [Condition] class is not in this source
    tree; the trigger only reads the weather parameter a condition checks. *)
Record t : Type := mk { weather_param : string }.

#[global] Instance eq_dec : EqDecision t.
Proof. solve_decision. Defined.
End Condition.

Module MetCondition.

(** Modelled from the spec: an entry of [met_conditions] pairs a condition
    with the weather value that met it; the trigger reads the entry stored
    under the key ['condition']. *)
Record t : Type := mk { condition : Condition.t; value : Z }.

#[global] Instance eq_dec : EqDecision t.
Proof. solve_decision. Defined.
End MetCondition.

Module Alert.

(** Modelled from the spec: the [Alert] class is not in this source tree; it
    exposes [id], [last_update] (an integer epoch) and [met_conditions]. *)
Record t : Type := mk {
  id : string;
  last_update : Z;
  met_conditions : list MetCondition.t
}.

#[global] Instance eq_dec : EqDecision t.
Proof. solve_decision. Defined.
End Alert.

(** ** [class Trigger] *)

Module Trigger.

Section Collaborators.

(** [pyowm.utils.timeformatutils.to_UNIXtime] and
    [pyowm.alertingapi30.enums.AlertChannelsEnum.OWM_API_POLLING] are
    imported by the module; they are taken as parameters. *)
Variable timeobject : Type.
Variable to_UNIXtime : timeobject -> result Z.
Variable AlertChannel : Type.
Variable OWM_API_POLLING : AlertChannel.

(** The attributes [__init__] assigns. *)
Record t : Type := mk {
  start : Z;
  end_ : Z;
  alerts : list Alert.t;
  alert_channels : list AlertChannel;
  id : option string
}.

(** [Trigger.__init__] *)
Definition init (start end_ : option timeobject)
    (conditions : option (list Condition.t)) (area : option (list string))
    (alerts : option (list Alert.t))
    (alert_channels : option (list AlertChannel))
    (id : option string) : result t :=
  start ← assert_not_None start;
  end_ ← assert_not_None end_;
  unix_start ← to_UNIXtime start;
  unix_end ← to_UNIXtime end_;
  if unix_start >=? unix_end then
    Raise (ValueError "Error: the start epoch must precede the end epoch")
  else
  conditions ← assert_not_None conditions;
  if (length conditions =? 0)%nat then
    Raise (ValueError "A trigger must contain at least one condition: you provided none")
  else
  area ← assert_not_None area;
  if (length area =? 0)%nat then
    Raise (ValueError "The area for a trigger must contain at least one geoJSON type: you provided none")
  else
  let self_alerts :=
    match alerts with
    | None => []
    | Some alerts => if (length alerts =? 0)%nat then [] else alerts
    end in
  let self_alert_channels :=
    match alert_channels with
    | None => [OWM_API_POLLING]
    | Some alert_channels =>
        if (length alert_channels =? 0)%nat then [OWM_API_POLLING]
        else alert_channels
    end in
  Ok (mk unix_start unix_end self_alerts self_alert_channels id).

(** *** Methods

    A method runs on the object [self], may raise, and hands back the
    object as it is after the call. *)
Definition M (A : Type) : Type := t -> result A * t.

#[local] Instance M_ret : MRet M := fun A a self => (Ok a, self).

#[local] Instance M_bind : MBind M := fun A B f m self =>
  match m self with
  | (Ok a, self') => f a self'
  | (Raise e, self') => (Raise e, self')
  end.

(** Reading an attribute of [self]. *)
Definition getattr {A : Type} (field : t -> A) : M A :=
  fun self => (Ok (field self), self).

(** Calling a function that does not see [self]. *)
Definition call {A : Type} (r : result A) : M A :=
  fun self => (r, self).

(** [Trigger.get_alerts] *)
Definition get_alerts : M (list Alert.t) :=
  getattr alerts.

(** [Trigger.get_alert] *)
Definition get_alert (alert_id : string) : M (option Alert.t) :=
  self_alerts ← getattr alerts;
  mret (for_in self_alerts
         (fun alert found =>
            if String.eqb (Alert.id alert) alert_id then (Some alert, Break)
            else (found, Continue))
         None).

(** [Trigger.get_alerts_since] *)
Definition get_alerts_since (timestamp : timeobject) : M (list Alert.t) :=
  unix_timestamp ← call (to_UNIXtime timestamp);
  self_alerts ← getattr alerts;
  mret (for_in self_alerts
         (fun alert result =>
            if Alert.last_update alert >=? unix_timestamp
            then (result ++ [alert], Continue)
            else (result, Continue))
         []).

(** [Trigger.get_alerts_on] *)
Definition get_alerts_on (weather_param : string) : M (list Alert.t) :=
  self_alerts ← getattr alerts;
  mret (for_in self_alerts
         (fun alert result =>
            (for_in (Alert.met_conditions alert)
               (fun met_condition result =>
                  if String.eqb
                       (Condition.weather_param (MetCondition.condition met_condition))
                       weather_param
                  then (result ++ [alert], Break)
                  else (result, Continue))
               result,
             Continue))
         []).

(** [pyowm.utils.timeformatutils.to_ISO8601], which [__repr__] calls on the
    two stored epochs, is a parameter as well. *)
Variable to_ISO8601 : Z -> result string.

(** The module's [__name__], and [self.__class__.__name__] for an instance
    of the class itself. *)
Definition __name__ : string := "pyowm.alertingapi30.trigger".
Definition __class__name__ : string := "Trigger".

(** [Trigger.__repr__]: the arguments of the format are evaluated from left
    to right, and each [%s] is replaced by the text of its argument. *)
Definition repr : M string :=
  self_id ← getattr id;
  self_start ← getattr start;
  iso_start ← call (to_ISO8601 self_start);
  self_end ← getattr end_;
  iso_end ← call (to_ISO8601 self_end);
  self_alerts ← getattr alerts;
  mret ("<" +:+ __name__ +:+ "." +:+ __class__name__
        +:+ " - id=" +:+ (match self_id with Some i => i | None => "None" end)
        +:+ ", start=" +:+ iso_start
        +:+ ", end=" +:+ iso_end
        +:+ ", alerts=" +:+ pretty (length self_alerts)
        +:+ ">").

End Collaborators.

Arguments repr {AlertChannel} to_ISO8601 self : rename.
Arguments mk {AlertChannel} start end_ alerts alert_channels id.
Arguments start {AlertChannel} self : rename.
Arguments end_ {AlertChannel} self : rename.
Arguments alerts {AlertChannel} self : rename.
Arguments alert_channels {AlertChannel} self : rename.
Arguments id {AlertChannel} self : rename.
Arguments init {timeobject} to_UNIXtime {AlertChannel} OWM_API_POLLING
  start end_ conditions area alerts alert_channels id.
Arguments get_alerts {AlertChannel} self : rename.
Arguments get_alert {AlertChannel} alert_id self : rename.
Arguments get_alerts_since {timeobject} to_UNIXtime {AlertChannel} timestamp self : rename.
Arguments get_alerts_on {AlertChannel} weather_param self : rename.

End Trigger.

(** ** [ImageTypeEnum] *)

Module ImageType.

(** Modelled from the spec: the [ImageType] record of
    [pyowm/commons/databoxes.py], which is not in this source tree; it
    holds a symbolic name, a MIME type and a file extension. *)
Record t : Type := mk {
  name : string;
  mime_type : string;
  file_extension : string
}.
End ImageType.

Module ImageTypeEnum.

(** Modelled from the spec: [ImageTypeEnum] of [pyowm/commons/enums.py], of
    which this source tree has only the unit tests.  The registry is a fixed
    list of records, [items]; each lookup scans it in order and returns the
    first record whose attribute equals the argument, or [None] when there
    is none. *)
Definition lookup_by_mime_type (items : list ImageType.t) (mime_type : string)
    : result (option ImageType.t) :=
  Ok (for_in items
        (fun i found =>
           if String.eqb (ImageType.mime_type i) mime_type then (Some i, Break)
           else (found, Continue))
        None).

(** Modelled from the spec: the same scan on the [name] attribute. *)
Definition lookup_by_name (items : list ImageType.t) (name : string)
    : result (option ImageType.t) :=
  Ok (for_in items
        (fun i found =>
           if String.eqb (ImageType.name i) name then (Some i, Break)
           else (found, Continue))
        None).

End ImageTypeEnum.

(** ** What the queries select *)

(** The alert was updated at [unix_timestamp] or later. *)
Definition fired_since (unix_timestamp : Z) (alert : Alert.t) : Prop :=
  unix_timestamp <= Alert.last_update alert.

(** One of the conditions the alert met checks [weather_param]. *)
Definition refers_to (weather_param : string) (alert : Alert.t) : Prop :=
  Exists
    (fun met_condition =>
       Condition.weather_param (MetCondition.condition met_condition) = weather_param)
    (Alert.met_conditions alert).

#[global] Instance fired_since_dec unix_timestamp alert :
  Decision (fired_since unix_timestamp alert).
Proof. unfold fired_since. apply _. Defined.

#[global] Instance refers_to_dec weather_param alert :
  Decision (refers_to weather_param alert).
Proof. unfold refers_to. apply _. Defined.

(** How many times [alert] occurs in a list of alerts. *)
Definition occurrences (alert : Alert.t) (l : list Alert.t) : nat :=
  length (filter (fun x => x = alert) l).

(** [found] is the first element of [l], in the order of [l], that satisfies
    [P]; it is [None] when no element of [l] does. *)
Definition first_match_of {A : Type} (P : A -> Prop) (l : list A)
    (found : option A) : Prop :=
  match found with
  | Some x =>
      exists k : nat,
        l !! k = Some x /\ P x
        /\ forall (j : nat) (y : A), l !! j = Some y -> (j < k)%nat -> ~ P y
  | None => forall x, x ∈ l -> ~ P x
  end.

(** ** Frame conditions of a method *)

(** The object is the same after the call. *)
Definition leaves_unchanged {T A : Type} (m : T -> result A * T) : Prop :=
  forall self, snd (m self) = self.

(** A second call, made right after the first, has the outcome of the
    first. *)
Definition repeatable {T A : Type} (m : T -> result A * T) : Prop :=
  forall self, fst (m (snd (m self))) = fst (m self).

(** ** Sample data for the worked examples *)

Module Samples.

(** Modelled from the spec: the time normalisation on its integer shape,
    where the epoch is the integer itself; the date-time and ISO-8601
    shapes do not occur in the examples. *)
Definition to_UNIXtime (timeobject : Z) : result Z := Ok timeobject.

Definition OWM_API_POLLING : string := "OWM API POLLING".

Definition on_temp : Condition.t := Condition.mk "temp".
Definition on_humidity : Condition.t := Condition.mk "humidity".
Definition on_pressure : Condition.t := Condition.mk "pressure".

Definition alert_a : Alert.t :=
  Alert.mk "alert-a" 100
    [MetCondition.mk on_temp 291; MetCondition.mk on_temp 295].
Definition alert_b : Alert.t :=
  Alert.mk "alert-b" 200 [MetCondition.mk on_humidity 80].
Definition alert_c : Alert.t :=
  Alert.mk "alert-c" 300
    [MetCondition.mk on_pressure 1010; MetCondition.mk on_temp 301].
(** A second alert carrying the identifier of [alert_b]. *)
Definition alert_b' : Alert.t :=
  Alert.mk "alert-b" 400 [MetCondition.mk on_temp 310].

Definition area : list string := ["Point"].

(** A normalisation that refuses negative integers, for the examples of a
    failing normalisation. *)
Definition to_UNIXtime_checked (timeobject : Z) : result Z :=
  if (timeobject <? 0)%Z then Raise (ValueError "The time value is a negative number")
  else Ok timeobject.

(** A stand-in for the ISO-8601 rendering in the examples: the epoch in
    decimal digits. *)
Definition to_ISO8601 (unixtime : Z) : result string := Ok (pretty unixtime).

Definition trigger : Trigger.t string :=
  Trigger.mk 1000 2000 [alert_a; alert_b; alert_c]
    [OWM_API_POLLING] (Some "trigger-1").

(** The same trigger after [alert_b'] was appended to its alerts. *)
Definition trigger' : Trigger.t string :=
  Trigger.mk 1000 2000 [alert_a; alert_b; alert_c; alert_b']
    [OWM_API_POLLING] (Some "trigger-1").

Definition PNG : ImageType.t := ImageType.mk "PNG" "image/png" "png".
Definition GEOTIFF : ImageType.t := ImageType.mk "GEOTIFF" "image/tiff" "tiff".
Definition items : list ImageType.t := [PNG; GEOTIFF].

End Samples.

(** ** Loops *)

Section Loops.

Context {A : Type}.

(** A scan that leaves at the first element whose key is [k]. *)
Lemma scan_first_match (key : A -> string) (k : string) (l : list A) :
  for_in l
    (fun x found =>
       if String.eqb (key x) k then (Some x, Break) else (found, Continue))
    None
  = snd <$> list_find (fun x => key x = k) l.
Proof.
  induction l as [|a l IH]; cbn [for_in]; [done|].
  change (list_find (fun x => key x = k) (a :: l))
    with (if decide (key a = k) then Some (0%nat, a)
          else prod_map S id <$> list_find (fun x => key x = k) l).
  destruct (String.eqb_spec (key a) k) as [Heq|Hne].
  - by rewrite decide_True.
  - rewrite decide_False by done. rewrite IH.
    by destruct (list_find (fun x => key x = k) l) as [[j b]|].
Qed.

Lemma list_find_first_match (P : A -> Prop) `{!forall x, Decision (P x)}
    (l : list A) :
  first_match_of P l (snd <$> list_find P l).
Proof.
  destruct (list_find P l) as [[k x]|] eqn:Hfind; cbn.
  - exists k. by apply list_find_Some in Hfind.
  - apply list_find_None in Hfind. intros x Hx. by eapply Forall_forall in Hfind.
Qed.

Lemma first_match_of_is_Some (P : A -> Prop) (l : list A) (found : option A) :
  first_match_of P l found ->
  is_Some found <-> exists x, x ∈ l /\ P x.
Proof.
  destruct found as [x|]; cbn.
  - intros (k & Hk & Hx & _). split; [|by eauto].
    intros _. exists x. split; [|done]. by eapply list_elem_of_lookup_2.
  - intros Hnone. split.
    + by intros [? [=]].
    + intros (x & Hin & Hx). by destruct (Hnone x).
Qed.

(** At most one outcome is the first match. *)
Lemma first_match_of_unique (P : A -> Prop) (l : list A) (f f' : option A) :
  first_match_of P l f -> first_match_of P l f' -> f = f'.
Proof.
  destruct f as [x|], f' as [x'|]; cbn.
  - intros (k & Hk & Hx & Hmin) (k' & Hk' & Hx' & Hmin').
    destruct (Nat.lt_trichotomy k k') as [Hlt|[->|Hlt]].
    + by destruct (Hmin' k x).
    + congruence.
    + by destruct (Hmin k' x').
  - intros (k & Hk & Hx & _) Hnone. destruct (Hnone x); [|done].
    by eapply list_elem_of_lookup_2.
  - intros Hnone (k & Hk & Hx & _). destruct (Hnone x'); [|done].
    by eapply list_elem_of_lookup_2.
  - done.
Qed.

End Loops.

Section Scans.

(** Appending the alerts that pass a test: the scan of [get_alerts_since]. *)
Lemma scan_since (unix_timestamp : Z) (l result : list Alert.t) :
  for_in l
    (fun alert result =>
       if Alert.last_update alert >=? unix_timestamp
       then (result ++ [alert], Continue)
       else (result, Continue))
    result
  = result ++ filter (fired_since unix_timestamp) l.
Proof.
  revert result. induction l as [|a l IH]; intros result; cbn [for_in].
  - by rewrite app_nil_r.
  - rewrite filter_cons. unfold fired_since at 2.
    destruct (Z.geb_spec (Alert.last_update a) unix_timestamp) as [Hge|Hlt].
    + rewrite decide_True by lia. rewrite IH. by rewrite <- app_assoc.
    + rewrite decide_False by lia. apply IH.
Qed.

(** The inner loop of [get_alerts_on]: one append at the first condition
    that matches, none otherwise. *)
Lemma scan_met_conditions (weather_param : string) (alert : Alert.t)
    (mcs : list MetCondition.t) (result : list Alert.t) :
  for_in mcs
    (fun met_condition result =>
       if String.eqb
            (Condition.weather_param (MetCondition.condition met_condition))
            weather_param
       then (result ++ [alert], Break)
       else (result, Continue))
    result
  = if decide (Exists
                 (fun mc => Condition.weather_param (MetCondition.condition mc)
                            = weather_param) mcs)
    then result ++ [alert] else result.
Proof.
  induction mcs as [|mc mcs IH]; cbn [for_in].
  - rewrite decide_False; [done|]. by intros ?%Exists_nil.
  - destruct (String.eqb_spec
                (Condition.weather_param (MetCondition.condition mc)) weather_param)
      as [Heq|Hne].
    + rewrite decide_True; [done|]. by apply Exists_cons_hd.
    + rewrite IH. case_decide as Hex.
      * rewrite decide_True; [done|]. by apply Exists_cons_tl.
      * rewrite decide_False; [done|]. intros [?|?]%Exists_cons; done.
Qed.

(** The outer loop of [get_alerts_on]. *)
Lemma scan_on (weather_param : string) (l result : list Alert.t) :
  for_in l
    (fun alert result =>
       (for_in (Alert.met_conditions alert)
          (fun met_condition result =>
             if String.eqb
                  (Condition.weather_param (MetCondition.condition met_condition))
                  weather_param
             then (result ++ [alert], Break)
             else (result, Continue))
          result,
        Continue))
    result
  = result ++ filter (refers_to weather_param) l.
Proof.
  revert result. induction l as [|a l IH]; intros result; cbn [for_in].
  - by rewrite app_nil_r.
  - rewrite IH, scan_met_conditions, filter_cons. unfold refers_to at 2.
    case_decide as Hex.
    + rewrite decide_True by done. by rewrite <- app_assoc.
    + by rewrite decide_False by done.
Qed.

(** Selecting from a list adds no occurrence of any alert. *)
Lemma occurrences_filter_le (P : Alert.t -> Prop) `{!forall x, Decision (P x)}
    (alert : Alert.t) (l : list Alert.t) :
  (occurrences alert (filter P l) <= occurrences alert l)%nat.
Proof.
  unfold occurrences. induction l as [|x l IH]; [done|].
  rewrite !filter_cons. destruct (decide (P x)) as [HP|HP].
  - rewrite filter_cons. destruct (decide (x = alert)); simpl; lia.
  - destruct (decide (x = alert)); simpl; lia.
Qed.

End Scans.

(** ** The constructor *)

Section Constructor.

Context {timeobject : Type} (to_UNIXtime : timeobject -> result Z).
Context {AlertChannel : Type} (OWM_API_POLLING : AlertChannel).

#[local] Abbreviation init := (Trigger.init to_UNIXtime OWM_API_POLLING).

Lemma length_eqb_0 {A : Type} (l : list A) :
  (length l =? 0)%nat = bool_decide (l = []).
Proof. by destruct l. Qed.

(** The constructor once both epochs are normalised. *)
Lemma init_normalised start end_ conditions area alerts alert_channels id
    unix_start unix_end :
  to_UNIXtime start = Ok unix_start ->
  to_UNIXtime end_ = Ok unix_end ->
  init (Some start) (Some end_) (Some conditions) (Some area)
    alerts alert_channels id
  = if unix_start >=? unix_end then
      Raise (ValueError "Error: the start epoch must precede the end epoch")
    else if bool_decide (conditions = []) then
      Raise (ValueError "A trigger must contain at least one condition: you provided none")
    else if bool_decide (area = []) then
      Raise (ValueError "The area for a trigger must contain at least one geoJSON type: you provided none")
    else
      Ok (Trigger.mk unix_start unix_end
            (match alerts with
             | None => []
             | Some alerts => if bool_decide (alerts = []) then [] else alerts
             end)
            (match alert_channels with
             | None => [OWM_API_POLLING]
             | Some alert_channels =>
                 if bool_decide (alert_channels = []) then [OWM_API_POLLING]
                 else alert_channels
             end)
            id).
Proof.
  intros Hstart Hend. unfold Trigger.init. cbn. rewrite Hstart. cbn.
  rewrite Hend. cbn. rewrite !length_eqb_0.
  destruct (unix_start >=? unix_end); [done|].
  destruct (bool_decide (conditions = [])); [done|].
  destruct (bool_decide (area = [])); [done|].
  destruct alerts as [l|], alert_channels as [c|]; by rewrite ?length_eqb_0.
Qed.

(** C1: when the normalised start epoch is strictly before the normalised
    end epoch and both [conditions] and [area] are non-empty, the
    constructor returns a trigger whose [start] and [end] are the two
    normalised epochs. *)
Theorem init_valid start end_ conditions area alerts alert_channels id
    unix_start unix_end :
  to_UNIXtime start = Ok unix_start ->
  to_UNIXtime end_ = Ok unix_end ->
  unix_start < unix_end ->
  conditions <> [] ->
  area <> [] ->
  exists self,
    init (Some start) (Some end_) (Some conditions) (Some area)
      alerts alert_channels id = Ok self
    /\ Trigger.start self = unix_start
    /\ Trigger.end_ self = unix_end.
Proof.
  intros Hstart Hend Hlt Hconditions Harea.
  rewrite (init_normalised _ _ _ _ _ _ _ _ _ Hstart Hend).
  destruct (Z.geb_spec unix_start unix_end) as [Hge|_]; [lia|].
  rewrite !bool_decide_eq_false_2 by done. eauto.
Qed.

(** C2: when the normalised start epoch equals or exceeds the normalised
    end epoch, or [conditions] is an empty sequence, or [area] is an empty
    sequence, the constructor raises [ValueError]. *)
Theorem init_invalid_ValueError start end_ conditions area alerts
    alert_channels id unix_start unix_end :
  to_UNIXtime start = Ok unix_start ->
  to_UNIXtime end_ = Ok unix_end ->
  unix_start >= unix_end \/ conditions = [] \/ area = [] ->
  exists msg,
    init (Some start) (Some end_) (Some conditions) (Some area)
      alerts alert_channels id = Raise (ValueError msg).
Proof.
  intros Hstart Hend Hbad.
  rewrite (init_normalised _ _ _ _ _ _ _ _ _ Hstart Hend).
  destruct (Z.geb_spec unix_start unix_end) as [_|Hlt]; [eauto|].
  case_bool_decide as Hconditions; [eauto|].
  case_bool_decide as Harea; [eauto|].
  destruct Hbad as [?|[?|?]]; [lia|done|done].
Qed.

(** C3, as the code has it: with [start] or [end] absent the constructor
    stops at its first assertions, so the error is [AssertionError] and not
    the [ValueError] the docstring announces. *)
Theorem init_None_AssertionError start end_ conditions area alerts
    alert_channels id :
  init None end_ conditions area alerts alert_channels id
    = Raise AssertionError
  /\ init (Some start) None conditions area alerts alert_channels id
    = Raise AssertionError.
Proof. done. Qed.

(** C7: for every valid construction (epochs in strict order, non-empty
    [conditions] and [area]) the constructor returns a trigger; built without
    [alert_channels], or with an empty sequence, it stores the single channel
    [OWM_API_POLLING]; built with a non-empty sequence, it stores that
    sequence as given. *)
Theorem init_alert_channels start end_ conditions area alerts id
    unix_start unix_end :
  to_UNIXtime start = Ok unix_start ->
  to_UNIXtime end_ = Ok unix_end ->
  unix_start < unix_end ->
  conditions <> [] ->
  area <> [] ->
  (forall alert_channels,
     alert_channels = None \/ alert_channels = Some [] ->
     exists self,
       init (Some start) (Some end_) (Some conditions) (Some area)
         alerts alert_channels id = Ok self
       /\ Trigger.alert_channels self = [OWM_API_POLLING])
  /\ (forall channels,
       channels <> [] ->
       exists self,
         init (Some start) (Some end_) (Some conditions) (Some area)
           alerts (Some channels) id = Ok self
         /\ Trigger.alert_channels self = channels).
Proof.
  intros Hstart Hend Hlt Hconditions Harea. split.
  - intros alert_channels Habsent.
    rewrite (init_normalised _ _ _ _ _ _ _ _ _ Hstart Hend).
    destruct (Z.geb_spec unix_start unix_end) as [Hge|_]; [lia|].
    rewrite !bool_decide_eq_false_2 by done.
    eexists; split; [done|]. by destruct Habsent as [->| ->].
  - intros channels Hchannels.
    rewrite (init_normalised _ _ _ _ _ _ _ _ _ Hstart Hend).
    destruct (Z.geb_spec unix_start unix_end) as [Hge|_]; [lia|].
    rewrite !bool_decide_eq_false_2 by done.
    by eexists.
Qed.

End Constructor.

(** ** The queries *)

Section Queries.

Context {timeobject : Type} (to_UNIXtime : timeobject -> result Z).
Context {AlertChannel : Type}.

Implicit Type self : Trigger.t AlertChannel.

#[local] Abbreviation get_alerts_since := (Trigger.get_alerts_since to_UNIXtime).

(** What each query returns, and the object it leaves. *)

Lemma get_alerts_run self :
  Trigger.get_alerts self = (Ok (Trigger.alerts self), self).
Proof. done. Qed.

Lemma get_alert_run alert_id self :
  Trigger.get_alert alert_id self
  = (Ok (snd <$> list_find (fun alert => Alert.id alert = alert_id)
                   (Trigger.alerts self)),
     self).
Proof.
  unfold Trigger.get_alert, Trigger.getattr, mbind, mret,
    Trigger.M_bind, Trigger.M_ret.
  by rewrite (scan_first_match Alert.id).
Qed.

Lemma get_alerts_since_run timestamp self :
  get_alerts_since timestamp self
  = (unix_timestamp ← to_UNIXtime timestamp;
     Ok (filter (fired_since unix_timestamp) (Trigger.alerts self)),
     self).
Proof.
  unfold Trigger.get_alerts_since, Trigger.getattr, Trigger.call, mbind, mret,
    Trigger.M_bind, Trigger.M_ret, result_bind.
  destruct (to_UNIXtime timestamp) as [unix_timestamp|e]; [|done].
  by rewrite scan_since.
Qed.

Lemma get_alerts_on_run weather_param self :
  Trigger.get_alerts_on weather_param self
  = (Ok (filter (refers_to weather_param) (Trigger.alerts self)), self).
Proof.
  unfold Trigger.get_alerts_on, Trigger.getattr, mbind, mret,
    Trigger.M_bind, Trigger.M_ret.
  by rewrite scan_on.
Qed.

(** C4: [get_alerts_since] normalises its argument with [to_UNIXtime], the
    function the constructor normalises [start] and [end] with, and returns
    the stored alerts whose [last_update] is at or after the normalised
    timestamp, and only those, in the stored order. *)
Theorem get_alerts_since_selects timestamp unix_timestamp self :
  to_UNIXtime timestamp = Ok unix_timestamp ->
  exists result,
    fst (get_alerts_since timestamp self) = Ok result
    /\ result = filter (fired_since unix_timestamp) (Trigger.alerts self)
    /\ result `sublist_of` Trigger.alerts self
    /\ forall alert,
         alert ∈ result <->
         alert ∈ Trigger.alerts self /\ unix_timestamp <= Alert.last_update alert.
Proof.
  intros Hnorm. rewrite get_alerts_since_run, Hnorm. cbn.
  eexists; split_and!; [done..| |].
  - apply sublist_filter.
  - intros alert. rewrite list_elem_of_filter. unfold fired_since. tauto.
Qed.

(** C5: [get_alert] returns the first stored alert, in stored order, whose
    [id] is the argument, and [None] when no stored alert has that [id]; among
    several alerts with the [id] it is the earliest one. *)
Theorem get_alert_first_match alert_id self :
  exists found,
    fst (Trigger.get_alert alert_id self) = Ok found
    /\ first_match_of (fun alert => Alert.id alert = alert_id)
         (Trigger.alerts self) found
    /\ (forall alert,
          found = Some alert ->
          exists before after,
            Trigger.alerts self = before ++ alert :: after
            /\ Alert.id alert = alert_id
            /\ Forall (fun earlier => Alert.id earlier <> alert_id) before)
    /\ (found = None <->
        Forall (fun alert => Alert.id alert <> alert_id) (Trigger.alerts self)).
Proof.
  rewrite get_alert_run. cbn. eexists; split_and!; [done| | |].
  - apply list_find_first_match.
  - intros alert Hfound.
    destruct (list_find _ _) as [[k x]|] eqn:Hfind; simplify_eq/=.
    apply list_find_Some in Hfind as (Hk & Hid & Hmin).
    exists (take k (Trigger.alerts self)), (drop (S k) (Trigger.alerts self)).
    split_and!; [|done|].
    + by rewrite take_drop_middle.
    + apply Forall_forall. intros earlier Hin.
      apply list_elem_of_lookup in Hin as [j Hj].
      pose proof (lookup_lt_Some _ _ _ Hj) as Hlen.
      rewrite lookup_take_Some in Hj. destruct Hj as [Hj Hjk].
      by eapply Hmin.
  - rewrite fmap_None. apply list_find_None.
Qed.

(** C6: [get_alerts_on] returns the stored alerts that have a met condition
    on the given weather parameter, and only those; however many of its met
    conditions are on that parameter, an alert occurs in the result no more
    often than it is stored, so at most once when it is stored once. *)
Theorem get_alerts_on_selects weather_param self :
  exists result,
    fst (Trigger.get_alerts_on weather_param self) = Ok result
    /\ result = filter (refers_to weather_param) (Trigger.alerts self)
    /\ (forall alert,
          alert ∈ result <->
          alert ∈ Trigger.alerts self
          /\ exists met_condition,
               met_condition ∈ Alert.met_conditions alert
               /\ Condition.weather_param (MetCondition.condition met_condition)
                  = weather_param)
    /\ (forall alert,
          (occurrences alert result
           <= occurrences alert (Trigger.alerts self))%nat)
    /\ (NoDup (Trigger.alerts self) -> NoDup result).
Proof.
  rewrite get_alerts_on_run. cbn. eexists; split_and!; [done..| | |].
  - intros alert. rewrite list_elem_of_filter. unfold refers_to.
    rewrite Exists_exists. tauto.
  - intros alert. apply occurrences_filter_le.
  - apply NoDup_filter.
Qed.

(** C9: the result of [get_alerts_on] is a subsequence of the stored alerts:
    the alerts it returns come in the order they are stored in. *)
Theorem get_alerts_on_sublist weather_param self :
  exists result,
    fst (Trigger.get_alerts_on weather_param self) = Ok result
    /\ result `sublist_of` Trigger.alerts self.
Proof.
  rewrite get_alerts_on_run. cbn. eexists; split; [done|]. apply sublist_filter.
Qed.

(** C10: none of the queries [get_alerts], [get_alert], [get_alerts_since]
    and [get_alerts_on] changes the trigger, and calling one again with the
    same argument gives the same outcome. *)
Theorem queries_leave_trigger_unchanged alert_id timestamp weather_param :
  (leaves_unchanged (T := Trigger.t AlertChannel) Trigger.get_alerts
   /\ repeatable (T := Trigger.t AlertChannel) Trigger.get_alerts)
  /\ (leaves_unchanged (T := Trigger.t AlertChannel) (Trigger.get_alert alert_id)
      /\ repeatable (T := Trigger.t AlertChannel) (Trigger.get_alert alert_id))
  /\ (leaves_unchanged (T := Trigger.t AlertChannel) (get_alerts_since timestamp)
      /\ repeatable (T := Trigger.t AlertChannel) (get_alerts_since timestamp))
  /\ (leaves_unchanged (T := Trigger.t AlertChannel)
        (Trigger.get_alerts_on weather_param)
      /\ repeatable (T := Trigger.t AlertChannel)
           (Trigger.get_alerts_on weather_param)).
Proof.
  unfold leaves_unchanged, repeatable. split_and!; intros self;
    by rewrite ?get_alerts_run, ?get_alert_run, ?get_alerts_since_run,
         ?get_alerts_on_run.
Qed.

End Queries.

(** ** The image type registry *)

Section ImageTypes.

Variable items : list ImageType.t.

(** C8: over any registry, [lookup_by_mime_type] returns the first record
    whose [mime_type] is the argument and [None] when no record has it, so it
    returns a record exactly when the registry holds one with that MIME type;
    [lookup_by_name] does the same on [name]; neither lookup raises. *)
Theorem lookups_first_match :
  (forall mime_type,
     exists found,
       ImageTypeEnum.lookup_by_mime_type items mime_type = Ok found
       /\ first_match_of (fun i => ImageType.mime_type i = mime_type) items found
       /\ (is_Some found <->
           exists i, i ∈ items /\ ImageType.mime_type i = mime_type))
  /\ (forall name,
       exists found,
         ImageTypeEnum.lookup_by_name items name = Ok found
         /\ first_match_of (fun i => ImageType.name i = name) items found
         /\ (is_Some found <-> exists i, i ∈ items /\ ImageType.name i = name)).
Proof.
  split.
  - intros mime_type. unfold ImageTypeEnum.lookup_by_mime_type.
    rewrite (scan_first_match ImageType.mime_type).
    pose proof (list_find_first_match
                  (fun i => ImageType.mime_type i = mime_type) items) as Hfirst.
    eexists; split_and!; [done|done|]. by apply first_match_of_is_Some.
  - intros name. unfold ImageTypeEnum.lookup_by_name.
    rewrite (scan_first_match ImageType.name).
    pose proof (list_find_first_match
                  (fun i => ImageType.name i = name) items) as Hfirst.
    eexists; split_and!; [done|done|]. by apply first_match_of_is_Some.
Qed.

End ImageTypes.

(** ** Worked examples *)

(** The constructor on integer epochs. *)

Lemma init_valid_witness :
  exists self,
    Trigger.init Samples.to_UNIXtime Samples.OWM_API_POLLING
      (Some 1000) (Some 2000) (Some [Samples.on_temp]) (Some Samples.area)
      None None None = Ok self
    /\ Trigger.start self = 1000
    /\ Trigger.end_ self = 2000.
Proof.
  apply (init_valid Samples.to_UNIXtime Samples.OWM_API_POLLING
           1000 2000 [Samples.on_temp] Samples.area None None None 1000 2000);
    [reflexivity | reflexivity | lia | discriminate | discriminate].
Defined.

Lemma init_invalid_ValueError_witness :
  exists msg,
    Trigger.init Samples.to_UNIXtime Samples.OWM_API_POLLING
      (Some 2000) (Some 2000) (Some [Samples.on_temp]) (Some Samples.area)
      None None None = Raise (ValueError msg).
Proof.
  apply (init_invalid_ValueError Samples.to_UNIXtime Samples.OWM_API_POLLING
           2000 2000 [Samples.on_temp] Samples.area None None None 2000 2000);
    [reflexivity | reflexivity | left; lia].
Defined.

Example init_empty_conditions :
  Trigger.init Samples.to_UNIXtime Samples.OWM_API_POLLING
    (Some 1000) (Some 2000) (Some []) (Some Samples.area) None None None
  = Raise (ValueError "A trigger must contain at least one condition: you provided none").
Proof. reflexivity. Qed.

Example init_empty_area :
  Trigger.init Samples.to_UNIXtime Samples.OWM_API_POLLING
    (Some 1000) (Some 2000) (Some [Samples.on_temp]) (Some []) None None None
  = Raise (ValueError "The area for a trigger must contain at least one geoJSON type: you provided none").
Proof. reflexivity. Qed.

Example init_start_None :
  Trigger.init Samples.to_UNIXtime Samples.OWM_API_POLLING
    None (Some 2000) (Some [Samples.on_temp]) (Some Samples.area) None None None
  = Raise AssertionError.
Proof. reflexivity. Qed.

Lemma init_alert_channels_witness :
  (exists self,
     Trigger.init Samples.to_UNIXtime Samples.OWM_API_POLLING
       (Some 1000) (Some 2000) (Some [Samples.on_temp]) (Some Samples.area)
       None None None = Ok self
     /\ Trigger.alert_channels self = [Samples.OWM_API_POLLING])
  /\ (exists self,
       Trigger.init Samples.to_UNIXtime Samples.OWM_API_POLLING
         (Some 1000) (Some 2000) (Some [Samples.on_temp]) (Some Samples.area)
         None (Some []) None = Ok self
       /\ Trigger.alert_channels self = [Samples.OWM_API_POLLING])
  /\ (exists self,
       Trigger.init Samples.to_UNIXtime Samples.OWM_API_POLLING
         (Some 1000) (Some 2000) (Some [Samples.on_temp]) (Some Samples.area)
         None (Some ["email"; "sms"]) None = Ok self
       /\ Trigger.alert_channels self = ["email"; "sms"]).
Proof.
  destruct (init_alert_channels Samples.to_UNIXtime Samples.OWM_API_POLLING
              1000 2000 [Samples.on_temp] Samples.area None None 1000 2000)
    as [Hdefault Hgiven];
    [reflexivity | reflexivity | lia | discriminate | discriminate |].
  split_and!.
  - apply Hdefault. left. reflexivity.
  - apply Hdefault. right. reflexivity.
  - apply Hgiven. discriminate.
Defined.

Example init_alert_channels_given :
  Trigger.init Samples.to_UNIXtime Samples.OWM_API_POLLING
    (Some 1000) (Some 2000) (Some [Samples.on_temp]) (Some Samples.area)
    None (Some ["email"; "sms"]) None
  = Ok (Trigger.mk 1000 2000 [] ["email"; "sms"] None).
Proof. reflexivity. Qed.

(** The queries on the sample triggers. *)

Lemma get_alerts_since_selects_witness :
  exists result,
    fst (Trigger.get_alerts_since Samples.to_UNIXtime 200 Samples.trigger)
      = Ok result
    /\ result = filter (fired_since 200) (Trigger.alerts Samples.trigger)
    /\ result `sublist_of` Trigger.alerts Samples.trigger
    /\ forall alert,
         alert ∈ result <->
         alert ∈ Trigger.alerts Samples.trigger /\ 200 <= Alert.last_update alert.
Proof.
  apply (get_alerts_since_selects Samples.to_UNIXtime 200 200 Samples.trigger).
  reflexivity.
Defined.

Example get_alerts_since_200 :
  Trigger.get_alerts_since Samples.to_UNIXtime 200 Samples.trigger
  = (Ok [Samples.alert_b; Samples.alert_c], Samples.trigger).
Proof. reflexivity. Qed.

Example get_alert_earliest :
  Trigger.get_alert "alert-b" Samples.trigger'
  = (Ok (Some Samples.alert_b), Samples.trigger').
Proof. reflexivity. Qed.

Example get_alert_absent :
  Trigger.get_alert "alert-z" Samples.trigger' = (Ok None, Samples.trigger').
Proof. reflexivity. Qed.

Lemma get_alerts_on_selects_witness :
  NoDup (filter (refers_to "temp") (Trigger.alerts Samples.trigger)).
Proof.
  destruct (get_alerts_on_selects "temp" Samples.trigger)
    as (result & _ & -> & _ & _ & Hnodup).
  apply Hnodup. apply (bool_decide_unpack _). vm_compute. exact I.
Defined.

(** [alert_a] met two conditions on the temperature and is returned once. *)
Example get_alerts_on_temp :
  Trigger.get_alerts_on "temp" Samples.trigger
  = (Ok [Samples.alert_a; Samples.alert_c], Samples.trigger).
Proof. reflexivity. Qed.

(** The image type lookups on the sample registry. *)

Example lookup_by_mime_type_png :
  ImageTypeEnum.lookup_by_mime_type Samples.items "image/png"
  = Ok (Some Samples.PNG).
Proof. reflexivity. Qed.

Example lookup_by_mime_type_unexistent :
  ImageTypeEnum.lookup_by_mime_type Samples.items "unexistent/xyz" = Ok None.
Proof. reflexivity. Qed.

Example lookup_by_name_geotiff :
  ImageTypeEnum.lookup_by_name Samples.items "GEOTIFF"
  = Ok (Some Samples.GEOTIFF).
Proof. reflexivity. Qed.

Example lookup_by_name_zoomooo :
  ImageTypeEnum.lookup_by_name Samples.items "ZOOMOOO" = Ok None.
Proof. reflexivity. Qed.

(** ** More on the constructor *)

Section ConstructorChecks.

Context {timeobject : Type} (to_UNIXtime : timeobject -> result Z).
Context {AlertChannel : Type} (OWM_API_POLLING : AlertChannel).

#[local] Abbreviation init' := (Trigger.init to_UNIXtime OWM_API_POLLING).

(** The checks of the constructor, in the order it makes them. *)
Lemma init_run start end_ conditions area alerts alert_channels id :
  init' start end_ conditions area alerts alert_channels id
  = match start, end_ with
    | None, _ | Some _, None => Raise AssertionError
    | Some start, Some end_ =>
        match to_UNIXtime start with
        | Raise e => Raise e
        | Ok unix_start =>
            match to_UNIXtime end_ with
            | Raise e => Raise e
            | Ok unix_end =>
                if unix_start >=? unix_end then
                  Raise (ValueError "Error: the start epoch must precede the end epoch")
                else
                  match conditions with
                  | None => Raise AssertionError
                  | Some [] =>
                      Raise (ValueError "A trigger must contain at least one condition: you provided none")
                  | Some (_ :: _) =>
                      match area with
                      | None => Raise AssertionError
                      | Some [] =>
                          Raise (ValueError "The area for a trigger must contain at least one geoJSON type: you provided none")
                      | Some (_ :: _) =>
                          Ok (Trigger.mk unix_start unix_end
                                (default [] alerts)
                                (match alert_channels with
                                 | None | Some [] => [OWM_API_POLLING]
                                 | Some (c :: cs) => c :: cs
                                 end)
                                id)
                      end
                  end
            end
        end
    end.
Proof.
  destruct start as [start|], end_ as [end_|]; try done.
  unfold Trigger.init. cbn.
  destruct (to_UNIXtime start) as [unix_start|e]; [cbn|done].
  destruct (to_UNIXtime end_) as [unix_end|e]; [cbn|done].
  destruct (unix_start >=? unix_end); [done|].
  destruct conditions as [[|c cs]|]; try done. cbn.
  destruct area as [[|a ar]|]; try done. cbn.
  by destruct alerts as [[|? ?]|], alert_channels as [[|? ?]|].
Qed.

(** X1: the constructor returns a trigger exactly when [start] and [end] are
    given and normalise to epochs in strict order and [conditions] and [area]
    are given and non-empty; the trigger then holds the two epochs, the given
    alerts (none when absent), the given channels (the polling channel when
    absent or empty) and the given id. *)
Theorem init_Ok_iff start end_ conditions area alerts alert_channels id self :
  init' start end_ conditions area alerts alert_channels id = Ok self <->
  exists start' end' unix_start unix_end conditions' area',
    start = Some start' /\ end_ = Some end'
    /\ to_UNIXtime start' = Ok unix_start /\ to_UNIXtime end' = Ok unix_end
    /\ unix_start < unix_end
    /\ conditions = Some conditions' /\ conditions' <> []
    /\ area = Some area' /\ area' <> []
    /\ self = Trigger.mk unix_start unix_end
                (default [] alerts)
                (match alert_channels with
                 | None | Some [] => [OWM_API_POLLING]
                 | Some (c :: cs) => c :: cs
                 end)
                id.
Proof.
  rewrite init_run. split.
  - destruct start as [start|], end_ as [end_|]; try done.
    destruct (to_UNIXtime start) as [unix_start|e] eqn:Hstart; [|done].
    destruct (to_UNIXtime end_) as [unix_end|e] eqn:Hend; [|done].
    destruct (Z.geb_spec unix_start unix_end) as [Hge|Hlt]; [done|].
    destruct conditions as [[|c cs]|]; try done.
    destruct area as [[|a ar]|]; try done.
    intros [= <-]. exists start, end_, unix_start, unix_end, (c :: cs), (a :: ar).
    by split_and!.
  - intros (start' & end' & unix_start & unix_end & conditions' & area'
            & -> & -> & Hstart & Hend & Hlt & -> & Hconditions & -> & Harea & ->).
    rewrite Hstart, Hend.
    destruct (Z.geb_spec unix_start unix_end) as [Hge|_]; [lia|].
    by destruct conditions' as [|c cs], area' as [|a ar].
Qed.

(** X2: every trigger the constructor returns starts strictly before it
    ends and has at least one alert channel. *)
Theorem init_invariant start end_ conditions area alerts alert_channels id self :
  init' start end_ conditions area alerts alert_channels id = Ok self ->
  Trigger.start self < Trigger.end_ self
  /\ Trigger.alert_channels self <> [].
Proof.
  rewrite init_run.
  destruct start as [start|], end_ as [end_|]; try done.
  destruct (to_UNIXtime start) as [unix_start|e]; [|done].
  destruct (to_UNIXtime end_) as [unix_end|e]; [|done].
  destruct (Z.geb_spec unix_start unix_end) as [Hge|Hlt]; [done|].
  destruct conditions as [[|c cs]|]; try done.
  destruct area as [[|a ar]|]; try done.
  intros [= <-]. cbn. split; [done|].
  by destruct alert_channels as [[|? ?]|].
Qed.

(** X3: the alerts and the id given to the constructor are what the trigger
    holds and what [get_alerts] hands out, in the given order; without alerts
    the trigger holds none. *)
Theorem init_get_alerts start end_ conditions area alerts alert_channels id self :
  init' start end_ conditions area alerts alert_channels id = Ok self ->
  Trigger.get_alerts self = (Ok (default [] alerts), self)
  /\ Trigger.id self = id.
Proof.
  rewrite init_run.
  destruct start as [start|], end_ as [end_|]; try done.
  destruct (to_UNIXtime start) as [unix_start|e]; [|done].
  destruct (to_UNIXtime end_) as [unix_end|e]; [|done].
  destruct (unix_start >=? unix_end); [done|].
  destruct conditions as [[|c cs]|]; try done.
  destruct area as [[|a ar]|]; try done.
  by intros [= <-].
Qed.

(** X4: with epochs in strict order, an absent [conditions] stops the
    constructor with [AssertionError], and so does an absent [area] once
    [conditions] is non-empty. *)
Theorem init_absent_sequences start end_ conditions area alerts alert_channels
    id unix_start unix_end :
  to_UNIXtime start = Ok unix_start ->
  to_UNIXtime end_ = Ok unix_end ->
  unix_start < unix_end ->
  init' (Some start) (Some end_) None area alerts alert_channels id
    = Raise AssertionError
  /\ (conditions <> [] ->
      init' (Some start) (Some end_) (Some conditions) None alerts
        alert_channels id = Raise AssertionError).
Proof.
  intros Hstart Hend Hlt. rewrite !init_run, Hstart, Hend.
  destruct (Z.geb_spec unix_start unix_end) as [Hge|_]; [lia|].
  split; [done|]. by destruct conditions.
Qed.

(** X5: an error of the time normalisation is the error of the constructor:
    the one raised for [start], or else the one raised for [end], whatever
    the other arguments are. *)
Theorem init_normalisation_error start end_ conditions area alerts
    alert_channels id e :
  to_UNIXtime start = Raise e
  \/ ((exists unix_start, to_UNIXtime start = Ok unix_start)
      /\ to_UNIXtime end_ = Raise e) ->
  init' (Some start) (Some end_) conditions area alerts alert_channels id
    = Raise e.
Proof.
  rewrite init_run. intros [Hstart|[[unix_start Hstart] Hend]].
  - by rewrite Hstart.
  - by rewrite Hstart, Hend.
Qed.

(** X6: the constructor reports the first check that fails: epochs out of
    order are reported whatever [conditions] and [area] are, even absent; an
    empty [conditions] is reported whatever [area] is; an empty [area] is
    reported last. *)
Theorem init_first_failure start end_ conditions area alerts alert_channels id
    unix_start unix_end :
  to_UNIXtime start = Ok unix_start ->
  to_UNIXtime end_ = Ok unix_end ->
  (unix_start >= unix_end ->
   init' (Some start) (Some end_) conditions area alerts alert_channels id
     = Raise (ValueError "Error: the start epoch must precede the end epoch"))
  /\ (unix_start < unix_end ->
      init' (Some start) (Some end_) (Some []) area alerts alert_channels id
        = Raise (ValueError "A trigger must contain at least one condition: you provided none"))
  /\ (unix_start < unix_end ->
      forall conditions', conditions' <> [] ->
      init' (Some start) (Some end_) (Some conditions') (Some []) alerts
        alert_channels id
        = Raise (ValueError "The area for a trigger must contain at least one geoJSON type: you provided none")).
Proof.
  intros Hstart Hend. rewrite !init_run, Hstart, Hend. split_and!.
  - intros Hge. by destruct (Z.geb_spec unix_start unix_end) as [_|Hlt]; [|lia].
  - intros Hlt. by destruct (Z.geb_spec unix_start unix_end) as [Hge|_]; [lia|].
  - intros Hlt conditions' Hne. rewrite init_run, Hstart, Hend.
    destruct (Z.geb_spec unix_start unix_end) as [Hge|_]; [lia|].
    by destruct conditions'.
Qed.

End ConstructorChecks.

(** ** More on the queries *)

Section Selections.

Context {A : Type} (P : A -> Prop) `{!forall x, Decision (P x)}.

Lemma filter_Forall_all (l : list A) : Forall P l -> filter P l = l.
Proof.
  induction 1 as [|x l Hx _ IH]; [done|].
  by rewrite filter_cons_True, IH.
Qed.

Lemma filter_Forall_none (l : list A) :
  Forall (fun x => ~ P x) l -> filter P l = [].
Proof.
  induction 1 as [|x l Hx _ IH]; [done|].
  by rewrite filter_cons_False.
Qed.

End Selections.

Section QueryFacts.

Context {timeobject : Type} (to_UNIXtime : timeobject -> result Z).
Context {AlertChannel : Type} (OWM_API_POLLING : AlertChannel).

Implicit Types self : Trigger.t AlertChannel.

#[local] Abbreviation since := (Trigger.get_alerts_since to_UNIXtime).

(** X7: a later timestamp selects fewer alerts: what [get_alerts_since]
    returns for it is what remains of the result for the earlier timestamp
    once the alerts updated before the later one are dropped. *)
Theorem get_alerts_since_later timestamp timestamp' unix_timestamp
    unix_timestamp' self :
  to_UNIXtime timestamp = Ok unix_timestamp ->
  to_UNIXtime timestamp' = Ok unix_timestamp' ->
  unix_timestamp <= unix_timestamp' ->
  exists result result',
    since timestamp self = (Ok result, self)
    /\ since timestamp' self = (Ok result', self)
    /\ result' = filter (fired_since unix_timestamp') result
    /\ result' `sublist_of` result.
Proof.
  intros Hnorm Hnorm' Hle. rewrite !get_alerts_since_run, Hnorm, Hnorm'. cbn.
  assert (filter (fired_since unix_timestamp')
            (filter (fired_since unix_timestamp) (Trigger.alerts self))
          = filter (fired_since unix_timestamp') (Trigger.alerts self)) as Heq.
  { apply list_filter_filter_l. unfold fired_since. intros alert. lia. }
  eexists _, _. split_and!; [done|done|done|].
  rewrite <- Heq. apply sublist_filter.
Qed.

(** X8: a timestamp no later than any update returns every stored alert, as
    [get_alerts] does; a timestamp after every update returns none. *)
Theorem get_alerts_since_extremes timestamp unix_timestamp self :
  to_UNIXtime timestamp = Ok unix_timestamp ->
  (Forall (fun alert => unix_timestamp <= Alert.last_update alert)
     (Trigger.alerts self) ->
   since timestamp self = Trigger.get_alerts self)
  /\ (Forall (fun alert => Alert.last_update alert < unix_timestamp)
        (Trigger.alerts self) ->
      since timestamp self = (Ok [], self)).
Proof.
  intros Hnorm. rewrite get_alerts_since_run, get_alerts_run, Hnorm. cbn. split.
  - intros Hall. by rewrite filter_Forall_all.
  - intros Hnone. rewrite filter_Forall_none; [done|].
    eapply Forall_impl; [done|]. unfold fired_since. intros alert. cbn. lia.
Qed.

(** X9: when the stored alerts have pairwise different ids, looking up the
    id of a stored alert returns that alert. *)
Theorem get_alert_of_stored alert self :
  NoDup (Alert.id <$> Trigger.alerts self) ->
  alert ∈ Trigger.alerts self ->
  Trigger.get_alert (Alert.id alert) self = (Ok (Some alert), self).
Proof.
  intros Hnodup Hin. rewrite get_alert_run. do 2 f_equal.
  pose proof (list_find_first_match
                (fun other => Alert.id other = Alert.id alert)
                (Trigger.alerts self)) as Hfirst.
  destruct (snd <$> list_find _ (Trigger.alerts self)) as [found|]; cbn in Hfirst.
  - destruct Hfirst as (k & Hk & Hid & _).
    apply list_elem_of_lookup in Hin as [j Hj]. f_equal.
    assert (k = j) as ->; [|congruence].
    eapply (NoDup_lookup _ _ _ _ Hnodup); rewrite list_lookup_fmap.
    + by rewrite Hk; cbn; rewrite Hid.
    + by rewrite Hj.
  - by destruct (Hfirst alert).
Qed.

(** X10: over a trigger whose alerts are those of another followed by new
    ones, [get_alerts_since] and [get_alerts_on] return the result over the
    other trigger followed by the new alerts they select. *)
Theorem selections_of_appended timestamp unix_timestamp weather_param
    self self' new :
  to_UNIXtime timestamp = Ok unix_timestamp ->
  Trigger.alerts self' = Trigger.alerts self ++ new ->
  (exists result,
     fst (since timestamp self) = Ok result
     /\ fst (since timestamp self')
        = Ok (result ++ filter (fired_since unix_timestamp) new))
  /\ (exists result,
       fst (Trigger.get_alerts_on weather_param self) = Ok result
       /\ fst (Trigger.get_alerts_on weather_param self')
          = Ok (result ++ filter (refers_to weather_param) new)).
Proof.
  intros Hnorm Happ.
  rewrite !get_alerts_since_run, !get_alerts_on_run, Hnorm, Happ. cbn.
  rewrite !filter_app. split; eexists; split; done.
Qed.

(** X11: an alert that [get_alert] finds is still the one it finds after
    alerts were added behind the stored ones; an id it does not find is then
    looked up among the added alerts. *)
Theorem get_alert_of_appended alert_id self self' new :
  Trigger.alerts self' = Trigger.alerts self ++ new ->
  (forall alert,
     fst (Trigger.get_alert alert_id self) = Ok (Some alert) ->
     fst (Trigger.get_alert alert_id self') = Ok (Some alert))
  /\ (fst (Trigger.get_alert alert_id self) = Ok None ->
      fst (Trigger.get_alert alert_id self')
      = Ok (snd <$> list_find (fun alert => Alert.id alert = alert_id) new)).
Proof.
  intros Happ. rewrite !get_alert_run, Happ. cbn. split.
  - intros alert [= Hfound].
    destruct (list_find _ (Trigger.alerts self)) as [[k x]|] eqn:Hfind;
      simplify_eq/=.
    by erewrite list_find_app_l.
  - intros [= Hfound]. apply fmap_None in Hfound.
    rewrite list_find_app_r by done.
    by destruct (list_find _ new) as [[k x]|].
Qed.

(** X12: a trigger built without alerts, or with an empty list of them,
    answers every query with nothing. *)
Theorem init_without_alerts start end_ conditions area alerts alert_channels
    id self :
  Trigger.init to_UNIXtime OWM_API_POLLING start end_ conditions area alerts
    alert_channels id = Ok self ->
  alerts = None \/ alerts = Some [] ->
  Trigger.get_alerts self = (Ok [], self)
  /\ (forall alert_id, Trigger.get_alert alert_id self = (Ok None, self))
  /\ (forall weather_param,
        Trigger.get_alerts_on weather_param self = (Ok [], self))
  /\ (forall timestamp unix_timestamp,
        to_UNIXtime timestamp = Ok unix_timestamp ->
        since timestamp self = (Ok [], self)).
Proof.
  intros Hinit Halerts.
  assert (Trigger.alerts self = []) as Hnone.
  { rewrite init_run in Hinit. repeat case_match; simplify_eq/=; try done.
    all: by destruct Halerts as [->| ->]. }
  rewrite get_alerts_run. split_and!.
  - by rewrite Hnone.
  - intros alert_id. by rewrite get_alert_run, Hnone.
  - intros weather_param. by rewrite get_alerts_on_run, Hnone.
  - intros timestamp unix_timestamp Hnorm.
    by rewrite get_alerts_since_run, Hnorm, Hnone.
Qed.

End QueryFacts.

(** ** The textual representation *)

Section Strings.

Lemma string_length_app (s t : string) :
  String.length (s +:+ t) = (String.length s + String.length t)%nat.
Proof. induction s as [|a s IH]; simpl; [done|]. by f_equal. Qed.

(** A common ending can be dropped from two equal texts. *)
Lemma string_app_inv_tail (s s' t : string) : s +:+ t = s' +:+ t -> s = s'.
Proof.
  revert s'. induction s as [|a s IH]; intros [|a' s'] Heq.
  - done.
  - apply (f_equal String.length) in Heq.
    rewrite !string_length_app in Heq. simpl in Heq. lia.
  - apply (f_equal String.length) in Heq.
    rewrite !string_length_app in Heq. simpl in Heq. lia.
  - simpl in Heq. injection Heq as -> Heq. f_equal. by apply IH.
Qed.

End Strings.

Section Representation.

Context {AlertChannel : Type} (to_ISO8601 : Z -> result string).

Implicit Types self : Trigger.t AlertChannel.

(** What [__repr__] returns, and the object it leaves. *)
Lemma repr_run self :
  Trigger.repr to_ISO8601 self
  = (iso_start ← to_ISO8601 (Trigger.start self);
     iso_end ← to_ISO8601 (Trigger.end_ self);
     Ok ("<" +:+ Trigger.__name__ +:+ "." +:+ Trigger.__class__name__
         +:+ " - id=" +:+ default "None" (Trigger.id self)
         +:+ ", start=" +:+ iso_start
         +:+ ", end=" +:+ iso_end
         +:+ ", alerts=" +:+ pretty (length (Trigger.alerts self))
         +:+ ">"),
     self).
Proof.
  unfold Trigger.repr, Trigger.getattr, Trigger.call, mbind, mret,
    Trigger.M_bind, Trigger.M_ret, result_bind.
  destruct (to_ISO8601 (Trigger.start self)) as [iso_start|e]; [|done].
  destruct (to_ISO8601 (Trigger.end_ self)) as [iso_end|e]; [|done].
  by destruct (Trigger.id self).
Qed.

(** X13: of a trigger's alerts and channels the text of [__repr__] shows
    only how many alerts there are: two triggers with the same id, start and
    end whose epochs can be rendered have the same text exactly when they
    hold equally many alerts. *)
Theorem repr_shows_alert_count self self' iso_start iso_end :
  Trigger.id self = Trigger.id self' ->
  Trigger.start self = Trigger.start self' ->
  Trigger.end_ self = Trigger.end_ self' ->
  to_ISO8601 (Trigger.start self) = Ok iso_start ->
  to_ISO8601 (Trigger.end_ self) = Ok iso_end ->
  fst (Trigger.repr to_ISO8601 self) = fst (Trigger.repr to_ISO8601 self')
  <-> length (Trigger.alerts self) = length (Trigger.alerts self').
Proof.
  intros Hid Hstart Hend Hiso_start Hiso_end.
  rewrite !repr_run, <- Hid, <- Hstart, <- Hend, Hiso_start, Hiso_end.
  cbn [fst mbind result_bind]. split.
  - intros Htext. injection Htext as Htext.
    repeat apply (inj (String.append _)) in Htext.
    apply string_app_inv_tail in Htext. by apply (inj pretty) in Htext.
  - by intros ->.
Qed.

End Representation.

(** ** Worked examples of the further properties *)

Lemma init_invariant_witness :
  Trigger.start (Trigger.mk 1000 2000 [] [Samples.OWM_API_POLLING] None)
    < Trigger.end_ (Trigger.mk 1000 2000 [] [Samples.OWM_API_POLLING] None)
  /\ Trigger.alert_channels
       (Trigger.mk 1000 2000 [] [Samples.OWM_API_POLLING] None) <> [].
Proof.
  apply (init_invariant Samples.to_UNIXtime Samples.OWM_API_POLLING
           (Some 1000) (Some 2000) (Some [Samples.on_temp]) (Some Samples.area)
           None None None).
  reflexivity.
Defined.

Lemma init_get_alerts_witness :
  Trigger.get_alerts
    (Trigger.mk 1000 2000 [Samples.alert_a; Samples.alert_b]
       [Samples.OWM_API_POLLING] (Some "trigger-1"))
  = (Ok (default [] (Some [Samples.alert_a; Samples.alert_b])),
     Trigger.mk 1000 2000 [Samples.alert_a; Samples.alert_b]
       [Samples.OWM_API_POLLING] (Some "trigger-1"))
  /\ Trigger.id
       (Trigger.mk 1000 2000 [Samples.alert_a; Samples.alert_b]
          [Samples.OWM_API_POLLING] (Some "trigger-1"))
     = Some "trigger-1".
Proof.
  apply (init_get_alerts Samples.to_UNIXtime Samples.OWM_API_POLLING
           (Some 1000) (Some 2000) (Some [Samples.on_temp]) (Some Samples.area)
           (Some [Samples.alert_a; Samples.alert_b]) None (Some "trigger-1")).
  reflexivity.
Defined.

Lemma init_absent_sequences_witness :
  Trigger.init Samples.to_UNIXtime Samples.OWM_API_POLLING
    (Some 1000) (Some 2000) None (Some Samples.area) None None None
    = Raise AssertionError
  /\ ([Samples.on_temp] <> [] ->
      Trigger.init Samples.to_UNIXtime Samples.OWM_API_POLLING
        (Some 1000) (Some 2000) (Some [Samples.on_temp]) None None None None
        = Raise AssertionError).
Proof.
  apply (init_absent_sequences Samples.to_UNIXtime Samples.OWM_API_POLLING
           1000 2000 [Samples.on_temp] (Some Samples.area) None None None
           1000 2000);
    [reflexivity | reflexivity | lia].
Defined.

Lemma init_normalisation_error_witness :
  Trigger.init Samples.to_UNIXtime_checked Samples.OWM_API_POLLING
    (Some 1000) (Some (-1)) (Some [Samples.on_temp]) (Some Samples.area)
    None None None
  = Raise (ValueError "The time value is a negative number").
Proof.
  apply (init_normalisation_error Samples.to_UNIXtime_checked
           Samples.OWM_API_POLLING 1000 (-1)).
  right. split; [exists 1000; reflexivity | reflexivity].
Defined.

Lemma init_first_failure_witness :
  Trigger.init Samples.to_UNIXtime Samples.OWM_API_POLLING
    (Some 2000) (Some 1000) None None None None None
  = Raise (ValueError "Error: the start epoch must precede the end epoch")
  /\ Trigger.init Samples.to_UNIXtime Samples.OWM_API_POLLING
       (Some 1000) (Some 2000) (Some []) None None None None
     = Raise (ValueError "A trigger must contain at least one condition: you provided none")
  /\ Trigger.init Samples.to_UNIXtime Samples.OWM_API_POLLING
       (Some 1000) (Some 2000) (Some [Samples.on_temp]) (Some []) None None None
     = Raise (ValueError "The area for a trigger must contain at least one geoJSON type: you provided none").
Proof.
  destruct (init_first_failure Samples.to_UNIXtime Samples.OWM_API_POLLING
              2000 1000 None None None None None 2000 1000)
    as (Horder & _ & _); [reflexivity | reflexivity |].
  destruct (init_first_failure Samples.to_UNIXtime Samples.OWM_API_POLLING
              1000 2000 None None None None None 1000 2000)
    as (_ & Hconditions & Harea); [reflexivity | reflexivity |].
  split_and!.
  - apply Horder. lia.
  - apply Hconditions. lia.
  - apply Harea; [lia | discriminate].
Defined.

Lemma get_alerts_since_later_witness :
  exists result result',
    Trigger.get_alerts_since Samples.to_UNIXtime 150 Samples.trigger
      = (Ok result, Samples.trigger)
    /\ Trigger.get_alerts_since Samples.to_UNIXtime 300 Samples.trigger
       = (Ok result', Samples.trigger)
    /\ result' = filter (fired_since 300) result
    /\ result' `sublist_of` result.
Proof.
  apply (get_alerts_since_later Samples.to_UNIXtime 150 300 150 300
           Samples.trigger);
    [reflexivity | reflexivity | lia].
Defined.

Lemma get_alerts_since_extremes_witness :
  Trigger.get_alerts_since Samples.to_UNIXtime 100 Samples.trigger
    = Trigger.get_alerts Samples.trigger
  /\ Trigger.get_alerts_since Samples.to_UNIXtime 301 Samples.trigger
     = (Ok [], Samples.trigger).
Proof.
  split.
  - apply (get_alerts_since_extremes Samples.to_UNIXtime 100 100 Samples.trigger);
      [reflexivity|].
    repeat constructor; cbn; lia.
  - apply (get_alerts_since_extremes Samples.to_UNIXtime 301 301 Samples.trigger);
      [reflexivity|].
    repeat constructor; cbn; lia.
Defined.

Lemma get_alert_of_stored_witness :
  Trigger.get_alert (Alert.id Samples.alert_b) Samples.trigger
  = (Ok (Some Samples.alert_b), Samples.trigger).
Proof.
  apply (get_alert_of_stored Samples.alert_b Samples.trigger).
  - apply (bool_decide_unpack _). vm_compute. exact I.
  - apply (bool_decide_unpack _). vm_compute. exact I.
Defined.

Lemma selections_of_appended_witness :
  (exists result,
     fst (Trigger.get_alerts_since Samples.to_UNIXtime 200 Samples.trigger)
       = Ok result
     /\ fst (Trigger.get_alerts_since Samples.to_UNIXtime 200 Samples.trigger')
        = Ok (result ++ filter (fired_since 200) [Samples.alert_b']))
  /\ (exists result,
       fst (Trigger.get_alerts_on "temp" Samples.trigger) = Ok result
       /\ fst (Trigger.get_alerts_on "temp" Samples.trigger')
          = Ok (result ++ filter (refers_to "temp") [Samples.alert_b'])).
Proof.
  apply (selections_of_appended Samples.to_UNIXtime 200 200 "temp"
           Samples.trigger Samples.trigger' [Samples.alert_b']);
    reflexivity.
Defined.

Lemma get_alert_of_appended_witness :
  fst (Trigger.get_alert "alert-b" Samples.trigger') = Ok (Some Samples.alert_b)
  /\ fst (Trigger.get_alert "alert-z" Samples.trigger')
     = Ok (snd <$> list_find (fun alert => Alert.id alert = "alert-z")
                     [Samples.alert_b']).
Proof.
  split.
  - apply (get_alert_of_appended "alert-b" Samples.trigger Samples.trigger'
             [Samples.alert_b']); reflexivity.
  - apply (get_alert_of_appended "alert-z" Samples.trigger Samples.trigger'
             [Samples.alert_b']); reflexivity.
Defined.

Lemma init_without_alerts_witness :
  Trigger.get_alerts
    (Trigger.mk 1000 2000 [] [Samples.OWM_API_POLLING] None)
  = (Ok [], Trigger.mk 1000 2000 [] [Samples.OWM_API_POLLING] None)
  /\ (forall alert_id,
        Trigger.get_alert alert_id
          (Trigger.mk 1000 2000 [] [Samples.OWM_API_POLLING] None)
        = (Ok None, Trigger.mk 1000 2000 [] [Samples.OWM_API_POLLING] None))
  /\ (forall weather_param,
        Trigger.get_alerts_on weather_param
          (Trigger.mk 1000 2000 [] [Samples.OWM_API_POLLING] None)
        = (Ok [], Trigger.mk 1000 2000 [] [Samples.OWM_API_POLLING] None))
  /\ (forall timestamp unix_timestamp,
        Samples.to_UNIXtime timestamp = Ok unix_timestamp ->
        Trigger.get_alerts_since Samples.to_UNIXtime timestamp
          (Trigger.mk 1000 2000 [] [Samples.OWM_API_POLLING] None)
        = (Ok [], Trigger.mk 1000 2000 [] [Samples.OWM_API_POLLING] None)).
Proof.
  apply (init_without_alerts Samples.to_UNIXtime Samples.OWM_API_POLLING
           (Some 1000) (Some 2000) (Some [Samples.on_temp]) (Some Samples.area)
           (Some []) None None);
    [reflexivity | right; reflexivity].
Defined.

Lemma repr_shows_alert_count_witness :
  fst (Trigger.repr Samples.to_ISO8601 Samples.trigger)
    = fst (Trigger.repr Samples.to_ISO8601 Samples.trigger')
  <-> length (Trigger.alerts Samples.trigger)
      = length (Trigger.alerts Samples.trigger').
Proof.
  apply (repr_shows_alert_count Samples.to_ISO8601 Samples.trigger
           Samples.trigger' (pretty 1000) (pretty 2000));
    reflexivity.
Defined.

Example repr_trigger :
  fst (Trigger.repr Samples.to_ISO8601 Samples.trigger)
  = Ok "<pyowm.alertingapi30.trigger.Trigger - id=trigger-1, start=1000, end=2000, alerts=3>".
Proof. reflexivity. Qed.
